(** * Flavor contract and flavor selection of mysqlctl

    A shallow embedding of [go/vt/mysqlctl/mysql_flavor.go]: the
    [MysqlFlavor] interface, the package-level registry [mysqlFlavors] and
    the selector [mysqlFlavor], followed by the properties of the selection
    policy.

    The selector reads the process environment and the registry, writes to
    the glog log and may terminate the process; these effects are threaded
    through an explicit [World]. *)

From stdpp Require Import gmap strings list fin_maps.
From Stdlib Require Import Strings.Byte.

Set Default Proof Using "Type".

(** ** Types owned by other packages

    [mysql.ConnectionParams], [proto.ReplicationPosition],
    [proto.ReplicationStatus], [proto.GTID], [blproto.BinlogEvent], [Mysqld]
    and [SlaveConnection] are declared outside this file, and [error] is
    Go's built-in interface.  The contract only mentions them, so they are
    taken as parameters, bundled in one signature. *)
Record Externals : Type := {
  Mysqld : Type;
  SlaveConnection : Type;
  ConnectionParams : Type;
  ReplicationPosition : Type;
  ReplicationStatus : Type;
  GTID : Type;
  BinlogEvent : Type;
  error : Type
}.

(** [time.Duration] is an int64 count of nanoseconds. *)
Definition Duration : Type := Z.

(** ** The interface

    One field per method, in the order of the source.  A Go result list
    [(T, error)] is a pair whose second component is [None] for a nil error;
    a nillable pointer result is an [option]; [[]byte] is a list of bytes.
    [MakeBinlogEvent] has the single result [blproto.BinlogEvent]. *)
Record MysqlFlavor_methods (X : Externals) : Type := {
  MasterPosition : Mysqld X → ReplicationPosition X * option (error X);
  SlaveStatus : Mysqld X → option (ReplicationStatus X) * option (error X);
  PromoteSlaveCommands : list string;
  StartReplicationCommands :
    ConnectionParams X → ReplicationStatus X → list string * option (error X);
  ParseGTID : string → GTID X * option (error X);
  ParseReplicationPosition : string → ReplicationPosition X * option (error X);
  SendBinlogDumpCommand :
    Mysqld X → SlaveConnection X → ReplicationPosition X → option (error X);
  MakeBinlogEvent : list byte → BinlogEvent X;
  WaitMasterPos : Mysqld X → ReplicationPosition X → Duration → option (error X)
}.

Arguments MasterPosition {X} _ _.
Arguments SlaveStatus {X} _ _.
Arguments PromoteSlaveCommands {X} _.
Arguments StartReplicationCommands {X} _ _ _.
Arguments ParseGTID {X} _ _.
Arguments ParseReplicationPosition {X} _ _.
Arguments SendBinlogDumpCommand {X} _ _ _ _.
Arguments MakeBinlogEvent {X} _ _.
Arguments WaitMasterPos {X} _ _ _ _.

(** A value of the interface type [MysqlFlavor] is either nil or a dynamic
    value carrying the methods. *)
Definition MysqlFlavor (X : Externals) : Type := option (MysqlFlavor_methods X).

Definition nil {X : Externals} : MysqlFlavor X := None.

(** ** The declaration of the interface, as data

    The parameter and result lists of each method, as the source declares
    them. *)
Inductive GoType : Type :=
| T_Mysqld_ptr             (* *Mysqld *)
| T_SlaveConnection_ptr    (* *SlaveConnection *)
| T_ConnectionParams_ptr   (* *mysql.ConnectionParams *)
| T_ReplicationPosition    (* proto.ReplicationPosition *)
| T_ReplicationStatus_ptr  (* *proto.ReplicationStatus *)
| T_GTID                   (* proto.GTID *)
| T_BinlogEvent            (* blproto.BinlogEvent *)
| T_Duration               (* time.Duration *)
| T_string                 (* string *)
| T_strings                (* []string *)
| T_bytes                  (* []byte *)
| T_error.                 (* error *)

#[global] Instance GoType_eq_dec : EqDecision GoType.
Proof. solve_decision. Defined.

Inductive Method : Type :=
| M_MasterPosition
| M_SlaveStatus
| M_PromoteSlaveCommands
| M_StartReplicationCommands
| M_ParseGTID
| M_ParseReplicationPosition
| M_SendBinlogDumpCommand
| M_MakeBinlogEvent
| M_WaitMasterPos.

Record Signature : Type := { params : list GoType; results : list GoType }.

Definition signature (m : Method) : Signature :=
  match m with
  | M_MasterPosition =>
      {| params := [T_Mysqld_ptr];
         results := [T_ReplicationPosition; T_error] |}
  | M_SlaveStatus =>
      {| params := [T_Mysqld_ptr];
         results := [T_ReplicationStatus_ptr; T_error] |}
  | M_PromoteSlaveCommands =>
      {| params := []; results := [T_strings] |}
  | M_StartReplicationCommands =>
      {| params := [T_ConnectionParams_ptr; T_ReplicationStatus_ptr];
         results := [T_strings; T_error] |}
  | M_ParseGTID =>
      {| params := [T_string]; results := [T_GTID; T_error] |}
  | M_ParseReplicationPosition =>
      {| params := [T_string]; results := [T_ReplicationPosition; T_error] |}
  | M_SendBinlogDumpCommand =>
      {| params := [T_Mysqld_ptr; T_SlaveConnection_ptr; T_ReplicationPosition];
         results := [T_error] |}
  | M_MakeBinlogEvent =>
      {| params := [T_bytes]; results := [T_BinlogEvent] |}
  | M_WaitMasterPos =>
      {| params := [T_Mysqld_ptr; T_ReplicationPosition; T_Duration];
         results := [T_error] |}
  end.

(** The values of a type in parameter position; a pointer argument is the
    object it points to. *)
Definition sem_param (X : Externals) (t : GoType) : Type :=
  match t with
  | T_Mysqld_ptr => Mysqld X
  | T_SlaveConnection_ptr => SlaveConnection X
  | T_ConnectionParams_ptr => ConnectionParams X
  | T_ReplicationPosition => ReplicationPosition X
  | T_ReplicationStatus_ptr => ReplicationStatus X
  | T_GTID => GTID X
  | T_BinlogEvent => BinlogEvent X
  | T_Duration => Duration
  | T_string => string
  | T_strings => list string
  | T_bytes => list byte
  | T_error => option (error X)
  end.

(** The values of a type in result position; a pointer result and an error
    result may be nil. *)
Definition sem_result (X : Externals) (t : GoType) : Type :=
  match t with
  | T_ReplicationStatus_ptr => option (ReplicationStatus X)
  | _ => sem_param X t
  end.

Fixpoint sem_results_ne (X : Externals) (t : GoType) (rs : list GoType) : Type :=
  match rs with
  | [] => sem_result X t
  | t' :: rs' => sem_result X t * sem_results_ne X t' rs'
  end.

(** A result list: a single value, or a tuple. *)
Definition sem_results (X : Externals) (rs : list GoType) : Type :=
  match rs with
  | [] => unit
  | t :: rs' => sem_results_ne X t rs'
  end.

Fixpoint sem_func (X : Externals) (ps : list GoType) (R : Type) : Type :=
  match ps with
  | [] => R
  | p :: ps' => sem_param X p → sem_func X ps' R
  end.

Definition sem_signature (X : Externals) (s : Signature) : Type :=
  sem_func X (params s) (sem_results X (results s)).

(** Method selection [flavor.m]: each field of the method record has the
    type its declared signature denotes. *)
Definition method {X : Externals} (flavor : MysqlFlavor_methods X) (m : Method) :
    sem_signature X (signature m) :=
  match m as m0 return sem_signature X (signature m0) with
  | M_MasterPosition => MasterPosition flavor
  | M_SlaveStatus => SlaveStatus flavor
  | M_PromoteSlaveCommands => PromoteSlaveCommands flavor
  | M_StartReplicationCommands => StartReplicationCommands flavor
  | M_ParseGTID => ParseGTID flavor
  | M_ParseReplicationPosition => ParseReplicationPosition flavor
  | M_SendBinlogDumpCommand => SendBinlogDumpCommand flavor
  | M_MakeBinlogEvent => MakeBinlogEvent flavor
  | M_WaitMasterPos => WaitMasterPos flavor
  end.

(** The error, if any, carried by one result. *)
Definition error_component (X : Externals) (t : GoType) :
    sem_result X t → option (error X) :=
  match t as t0 return sem_result X t0 → option (error X) with
  | T_error => λ e, e
  | _ => λ _, None
  end.

Fixpoint returned_error_ne (X : Externals) (t : GoType) (rs : list GoType) :
    sem_results_ne X t rs → option (error X) :=
  match rs as rs0 return sem_results_ne X t rs0 → option (error X) with
  | [] => error_component X t
  | t' :: rs' => λ r,
      match error_component X t r.1 with
      | Some e => Some e
      | None => returned_error_ne X t' rs' r.2
      end
  end.

(** The non-nil error, if any, among the results a call returned. *)
Definition returned_error (X : Externals) (rs : list GoType) :
    sem_results X rs → option (error X) :=
  match rs as rs0 return sem_results X rs0 → option (error X) with
  | [] => λ _, None
  | t :: rs' => returned_error_ne X t rs'
  end.

(** What the caller of a method observes: the results, or an error handed
    back through an [error] result. *)
Inductive CallResult (E T : Type) : Type :=
| Value (v : T)
| Failure (e : E).

Arguments Value {E T} v.
Arguments Failure {E T} e.

Definition observe (X : Externals) (rs : list GoType) (r : sem_results X rs) :
    CallResult (error X) (sem_results X rs) :=
  match returned_error X rs r with
  | Some e => Failure e
  | None => Value r
  end.

(** [g, err := flavor.ParseGTID(s)] *)
Definition ParseGTID_call {X : Externals}
    (flavor : MysqlFlavor_methods X) (s : string) :
    CallResult (error X) (GTID X * option (error X)) :=
  observe X (results (signature M_ParseGTID)) (method flavor M_ParseGTID s).


(** ** The process state seen by the selector *)

Inductive Severity : Type := INFO | FATAL.

Record LogLine : Type := { severity : Severity; message : string }.

Record World (X : Externals) : Type := {
  environ : gmap string string;              (* the process environment *)
  mysqlFlavors : gmap string (MysqlFlavor X); (* var mysqlFlavors *)
  glog : list LogLine                         (* messages logged through glog *)
}.

Arguments environ {X} _.
Arguments mysqlFlavors {X} _.
Arguments glog {X} _.

(** How a call ends: it returns, the process exits inside [log.Fatal] (the
    fatal configuration error of the selector), or a panic is raised. *)
Inductive Outcome (A : Type) : Type :=
| Returned (a : A)
| Fatal
| Panicked (msg : string).

Arguments Returned {A} a.
Arguments Fatal {A}.
Arguments Panicked {A} msg.

(** Inside a function body a statement either falls through to the next
    statement or executes [return r]. *)
Inductive Flow (R : Type) : Type :=
| Next
| Return_ (r : R).

Arguments Next {R}.
Arguments Return_ {R} r.

Module Selector.
Section WithExternals.
Context {X : Externals}.

Definition Go (A : Type) : Type := World X → Outcome A * World X.

#[global] Instance go_ret : MRet Go := λ A a w, (Returned a, w).

#[global] Instance go_bind : MBind Go := λ A B k m w,
  match m w with
  | (Returned a, w') => k a w'
  | (Fatal, w') => (Fatal, w')
  | (Panicked msg, w') => (Panicked msg, w')
  end.

Definition info (msg : string) : LogLine := {| severity := INFO; message := msg |}.

Definition fatal (msg : string) : LogLine := {| severity := FATAL; message := msg |}.

Definition log_line (l : LogLine) (w : World X) : World X :=
  {| environ := environ w; mysqlFlavors := mysqlFlavors w;
     glog := glog w ++ [l] |}.

(** [os.Getenv]: the value of the variable, empty when it is not set. *)
Definition Getenv (key : string) : Go string :=
  λ w, (Returned (default EmptyString (environ w !! key)), w).

(** [log.Info] and [log.Infof] with the message already formatted. *)
Definition log_Info (msg : string) : Go unit :=
  λ w, (Returned tt, log_line (info msg) w).

(** [log.Fatal] and [log.Fatalf]: log the message, then exit the process;
    control never comes back to the caller.  One [LogLine] is one logged
    message; the stack dump that glog writes out after a FATAL message is
    not represented. *)
Definition log_Fatal (msg : string) : Go unit :=
  λ w, (Fatal, log_line (fatal msg) w).

Definition panic {A : Type} (msg : string) : Go A :=
  λ w, (Panicked msg, w).

(** [len(mysqlFlavors)] *)
Definition len_mysqlFlavors : Go nat :=
  λ w, (Returned (size (mysqlFlavors w)), w).

(** [v, ok := mysqlFlavors[key]]: the zero value nil and [false] when the
    key is absent. *)
Definition index_mysqlFlavors (key : string) : Go (MysqlFlavor X * bool) :=
  λ w, (Returned (match mysqlFlavors w !! key with
                  | Some v => (v, true)
                  | None => (nil, false)
                  end), w).

(** The entries that [range mysqlFlavors] visits.  Go leaves the order
    unspecified; the only loop of this file runs when there is exactly one
    entry. *)
Definition range_mysqlFlavors : Go (list (string * MysqlFlavor X)) :=
  λ w, (Returned (map_to_list (mysqlFlavors w)), w).

(** A statement of a function with result type [R]. *)
Abbreviation Stmt R := (Go (Flow R)) (only parsing).

Definition return_ {R : Type} (r : R) : Stmt R := mret (Return_ r).

Definition skip {R : Type} : Stmt R := mret Next.

(** An expression statement. *)
Definition exec {R : Type} (m : Go unit) : Stmt R := m ;; mret Next.

(** [s1; s2] *)
Definition seq {R : Type} (s1 s2 : Stmt R) : Stmt R :=
  fl ← s1; match fl with Return_ r => mret (Return_ r) | Next => s2 end.

(** [if b { s }] *)
Definition if_ {R : Type} (b : bool) (s : Stmt R) : Stmt R :=
  if b then s else skip.

(** [for k, v := range entries { body }] *)
Fixpoint for_range {R K V : Type} (entries : list (K * V))
    (body : K → V → Stmt R) : Stmt R :=
  match entries with
  | [] => skip
  | (k, v) :: rest => seq (body k v) (for_range rest body)
  end.

(** A function body: statements followed by its terminating statement. *)
Definition func {R : Type} (s : Stmt R) (last : Go R) : Go R :=
  fl ← s; match fl with Return_ r => mret r | Next => last end.

Local Infix ";;;" := seq (at level 60, right associativity).

Definition mysqlFlavor : Go (MysqlFlavor X) :=
  f ← Getenv "MYSQL_FLAVOR";
  func
    (if_ (bool_decide (f = EmptyString))
       ((n ← len_mysqlFlavors;
         if_ (bool_decide (n = 1))
           (entries ← range_mysqlFlavors;
            for_range entries (λ k v,
              exec (log_Info ("Only one MySQL flavor declared, using " +:+ k)) ;;;
              return_ v))) ;;;
        (r ← index_mysqlFlavors "GoogleMysql";
         if_ r.2
           (exec (log_Info "MYSQL_FLAVOR is not set, using GoogleMysql flavor by default") ;;;
            return_ r.1)) ;;;
        exec (log_Fatal "MYSQL_FLAVOR is not set, and no GoogleMysql flavor registered")) ;;;
     (r ← index_mysqlFlavors f;
      if_ r.2
        (exec (log_Info ("Using MySQL flavor " +:+ f)) ;;;
         return_ r.1)) ;;;
     exec (log_Fatal ("MYSQL_FLAVOR is set to unknown value " +:+ f)))
    (panic EmptyString).

(** The configuration value the selector reads. *)
Definition config (w : World X) : string :=
  default EmptyString (environ w !! "MYSQL_FLAVOR").

(** [os.Setenv], used to describe a change of the environment between
    two calls. *)
Definition Setenv (key value : string) (w : World X) : World X :=
  {| environ := <[key := value]> (environ w); mysqlFlavors := mysqlFlavors w;
     glog := glog w |}.

(** The selection policy in the words of the specification, for comparison
    with [mysqlFlavor]: a configuration value that names a flavor selects
    the flavor registered under it; without one, the only registered flavor
    when there is exactly one, else the flavor registered under the default
    name.  [None] is the fatal failure of the resolution. *)
Definition resolution_policy (cfg : string)
    (registry : gmap string (MysqlFlavor X)) : option (MysqlFlavor X) :=
  if decide (cfg = EmptyString) then
    match map_to_list registry with
    | [(_, v)] => Some v
    | _ => registry !! "GoogleMysql"
    end
  else registry !! cfg.

Definition policy_outcome (o : option (MysqlFlavor X)) : Outcome (MysqlFlavor X) :=
  match o with
  | Some v => Returned v
  | None => Fatal
  end.

(** [var mysqlFlavors = make(map[string]MysqlFlavor)]: the registry a
    process starts with, before any flavor has put itself into it. *)
Definition mysqlFlavors_init : gmap string (MysqlFlavor X) := ∅.

End WithExternals.
End Selector.

Import Selector.

(** ** Test doubles

    Two registrable implementations over plain external types, standing for
    the [implA] and [implB] of the concrete scenarios.  Their
    [MakeBinlogEvent] hands the frame back as the event. *)
Definition plainTypes : Externals := {|
  Mysqld := unit;
  SlaveConnection := unit;
  ConnectionParams := unit;
  ReplicationPosition := nat;
  ReplicationStatus := nat;
  GTID := string;
  BinlogEvent := list byte;
  error := string
|}.

Definition stubFlavor (tag : string) : MysqlFlavor_methods plainTypes :=
  Build_MysqlFlavor_methods plainTypes
    (λ _, (0, None))                      (* MasterPosition *)
    (λ _, (None, None))                   (* SlaveStatus *)
    [tag]                                 (* PromoteSlaveCommands *)
    (λ _ _, ([tag], None))                (* StartReplicationCommands *)
    (λ s, (s, None))                      (* ParseGTID *)
    (λ s, (String.length s, None))        (* ParseReplicationPosition *)
    (λ _ _ _, None)                       (* SendBinlogDumpCommand *)
    (λ buf, buf)                          (* MakeBinlogEvent *)
    (λ _ _ _, None).                      (* WaitMasterPos *)

Definition implA : MysqlFlavor plainTypes := Some (stubFlavor "A").

Definition implB : MysqlFlavor plainTypes := Some (stubFlavor "B").

(** A freshly started process: the given environment and registry, nothing
    logged yet. *)
Definition start {X : Externals} (env : gmap string string)
    (registry : gmap string (MysqlFlavor X)) : World X :=
  {| environ := env; mysqlFlavors := registry; glog := [] |}.

Definition onlyGoogle : World plainTypes :=
  start ∅ {[ "GoogleMysql" := implA ]}.

Definition googleAndMaria : World plainTypes :=
  start ∅ (<[ "GoogleMysql" := implA ]> {[ "MariaDB" := implB ]}).

Definition onlyMaria : World plainTypes :=
  start ∅ {[ "MariaDB" := implB ]}.

Definition twoNoDefault : World plainTypes :=
  start ∅ (<[ "Percona" := implA ]> {[ "MariaDB" := implB ]}).

(** ** Stepping through the selector *)

Ltac go_unfold :=
  unfold mysqlFlavor, func, seq, if_, exec, return_, skip, Getenv,
    len_mysqlFlavors, range_mysqlFlavors, index_mysqlFlavors, log_Info,
    log_Fatal, panic, mbind, go_bind, mret, go_ret.

Section Registry.
Context {V : Type}.
Implicit Types m : gmap string V.

(** A map of size one lists exactly one entry, and every lookup that
    succeeds hits it. *)
Lemma map_size_1_entries m :
  size m = 1 →
  ∃ k v, map_to_list m = [(k, v)] ∧ ∀ k' v', m !! k' = Some v' → k' = k ∧ v' = v.
Proof.
  intros Hsz. rewrite <- length_map_to_list in Hsz.
  destruct (map_to_list m) as [|[k v] [|? ?]] eqn:Hl; simplify_eq/=.
  exists k, v. split; [done|]. intros k' v' Hk'.
  apply elem_of_map_to_list in Hk'. rewrite Hl in Hk'.
  apply list_elem_of_singleton in Hk'. by simplify_eq.
Qed.

(** Two different registered names make the size exceed one. *)
Lemma map_size_two_keys m k1 k2 :
  k1 ≠ k2 → is_Some (m !! k1) → is_Some (m !! k2) → size m ≠ 1.
Proof.
  intros Hne [v1 H1] [v2 H2] Hsz.
  destruct (map_size_1_entries m Hsz) as (k & v & _ & Huniq).
  destruct (Huniq _ _ H1) as [-> _]. destruct (Huniq _ _ H2) as [-> _]. done.
Qed.

End Registry.

Section Steps.
Context {X : Externals}.
Implicit Types (w : World X) (v : MysqlFlavor X) (k f : string).

(** With a configuration value, only the lookup of that name decides. *)
Lemma mysqlFlavor_explicit w :
  config w ≠ EmptyString →
  mysqlFlavor w =
    match mysqlFlavors w !! config w with
    | Some v => (Returned v, log_line (info ("Using MySQL flavor " +:+ config w)) w)
    | None =>
        (Fatal, log_line (fatal ("MYSQL_FLAVOR is set to unknown value " +:+ config w)) w)
    end.
Proof.
  intros Hf. go_unfold. fold (config w).
  rewrite bool_decide_eq_false_2 by done.
  by destruct (mysqlFlavors w !! config w).
Qed.

(** Without a configuration value and with one entry, the loop returns it. *)
Lemma mysqlFlavor_single w k v :
  config w = EmptyString →
  size (mysqlFlavors w) = 1 →
  map_to_list (mysqlFlavors w) = [(k, v)] →
  mysqlFlavor w =
    (Returned v, log_line (info ("Only one MySQL flavor declared, using " +:+ k)) w).
Proof.
  intros Hf Hsz Hl. go_unfold. fold (config w). rewrite Hf.
  rewrite bool_decide_eq_true_2 by done. cbv beta iota.
  rewrite Hsz, bool_decide_eq_true_2 by done. cbv beta iota.
  rewrite Hl. done.
Qed.

(** Without a configuration value and with any other number of entries, the
    lookup of the default name decides. *)
Lemma mysqlFlavor_default w :
  config w = EmptyString →
  size (mysqlFlavors w) ≠ 1 →
  mysqlFlavor w =
    match mysqlFlavors w !! "GoogleMysql" with
    | Some v =>
        (Returned v,
         log_line (info "MYSQL_FLAVOR is not set, using GoogleMysql flavor by default") w)
    | None =>
        (Fatal,
         log_line (fatal "MYSQL_FLAVOR is not set, and no GoogleMysql flavor registered") w)
    end.
Proof.
  intros Hf Hsz. go_unfold. fold (config w). rewrite Hf.
  rewrite bool_decide_eq_true_2 by done. cbv beta iota.
  rewrite (bool_decide_eq_false_2 (size _ = 1)) by done. cbv beta iota.
  by destruct (mysqlFlavors w !! "GoogleMysql").
Qed.

End Steps.

Section Shape.
Context {X : Externals}.
Implicit Types (w : World X) (v : MysqlFlavor X) (k f : string).

Lemma config_unset w :
  environ w !! "MYSQL_FLAVOR" = None → config w = EmptyString.
Proof. unfold config. by intros ->. Qed.

Lemma config_empty w :
  environ w !! "MYSQL_FLAVOR" = Some EmptyString → config w = EmptyString.
Proof. unfold config. by intros ->. Qed.

(** Every call ends in one of two ways, and writes one log line: it returns
    a value stored in the registry, or the process exits. *)
Lemma mysqlFlavor_cases w :
  ∃ line, (mysqlFlavor w).2 = log_line line w ∧
    ((mysqlFlavor w).1 = Fatal ∨
     ∃ k v, mysqlFlavors w !! k = Some v ∧ (mysqlFlavor w).1 = Returned v).
Proof.
  destruct (decide (config w = EmptyString)) as [Hf|Hf].
  - destruct (decide (size (mysqlFlavors w) = 1)) as [Hsz|Hsz].
    + destruct (map_size_1_entries _ Hsz) as (k & v & Hl & _).
      rewrite (mysqlFlavor_single w k v Hf Hsz Hl).
      eexists; split; [done|]. right. exists k, v. split; [|done].
      apply elem_of_map_to_list. rewrite Hl. by apply list_elem_of_singleton.
    + rewrite (mysqlFlavor_default w Hf Hsz).
      destruct (mysqlFlavors w !! "GoogleMysql") as [v|] eqn:Hg;
        (eexists; split; [done|]); [right; by exists "GoogleMysql", v | by left].
  - rewrite (mysqlFlavor_explicit w Hf).
    destruct (mysqlFlavors w !! config w) as [v|] eqn:Hl;
      (eexists; split; [done|]); [right; by exists (config w), v | by left].
Qed.

(** The outcome is a function of the environment and the registry alone. *)
Lemma mysqlFlavor_outcome_ext w w' :
  environ w' = environ w → mysqlFlavors w' = mysqlFlavors w →
  (mysqlFlavor w').1 = (mysqlFlavor w).1.
Proof.
  intros Henv Hreg.
  assert (config w' = config w) as Hcfg by (unfold config; by rewrite Henv).
  destruct (decide (config w = EmptyString)) as [Hf|Hf].
  - assert (config w' = EmptyString) as Hf' by congruence.
    destruct (decide (size (mysqlFlavors w) = 1)) as [Hsz|Hsz].
    + destruct (map_size_1_entries _ Hsz) as (k & v & Hl & _).
      rewrite (mysqlFlavor_single w k v Hf Hsz Hl).
      rewrite <- Hreg in Hsz, Hl.
      by rewrite (mysqlFlavor_single w' k v Hf' Hsz Hl).
    + rewrite (mysqlFlavor_default w Hf Hsz).
      rewrite <- Hreg in Hsz. rewrite (mysqlFlavor_default w' Hf' Hsz), Hreg.
      by destruct (mysqlFlavors w !! "GoogleMysql").
  - rewrite (mysqlFlavor_explicit w Hf).
    rewrite <- Hcfg in Hf. rewrite (mysqlFlavor_explicit w' Hf), Hcfg, Hreg.
    by destruct (mysqlFlavors w !! config w).
Qed.

(** The whole result, state included, is a function of the value of
    MYSQL_FLAVOR and of the registry: the same outcome, and the same line
    appended to whatever had been logged. *)
Lemma mysqlFlavor_config_ext w w' :
  config w' = config w → mysqlFlavors w' = mysqlFlavors w →
  ∃ line,
    mysqlFlavor w = ((mysqlFlavor w).1, log_line line w) ∧
    mysqlFlavor w' = ((mysqlFlavor w).1, log_line line w').
Proof.
  intros Hcfg Hreg.
  destruct (decide (config w = EmptyString)) as [Hf|Hf].
  - assert (config w' = EmptyString) as Hf' by congruence.
    destruct (decide (size (mysqlFlavors w) = 1)) as [Hsz|Hsz].
    + destruct (map_size_1_entries _ Hsz) as (k & v & Hl & _).
      rewrite (mysqlFlavor_single w k v Hf Hsz Hl).
      rewrite <- Hreg in Hsz, Hl.
      rewrite (mysqlFlavor_single w' k v Hf' Hsz Hl). by eexists.
    + rewrite (mysqlFlavor_default w Hf Hsz).
      rewrite <- Hreg in Hsz. rewrite (mysqlFlavor_default w' Hf' Hsz), Hreg.
      destruct (mysqlFlavors w !! "GoogleMysql"); by eexists.
  - rewrite (mysqlFlavor_explicit w Hf).
    rewrite <- Hcfg in Hf. rewrite (mysqlFlavor_explicit w' Hf), Hcfg, Hreg.
    destruct (mysqlFlavors w !! config w); by eexists.
Qed.

(** The outcome of a call is the one the policy of the specification gives
    for the current value of MYSQL_FLAVOR and the current registry. *)
Lemma mysqlFlavor_runs_policy w :
  (mysqlFlavor w).1 = policy_outcome (resolution_policy (config w) (mysqlFlavors w)).
Proof.
  unfold resolution_policy.
  destruct (decide (config w = EmptyString)) as [Hf|Hf].
  - destruct (decide (size (mysqlFlavors w) = 1)) as [Hsz|Hsz].
    + destruct (map_size_1_entries _ Hsz) as (k & v & Hl & _).
      by rewrite (mysqlFlavor_single w k v Hf Hsz Hl), Hl.
    + rewrite (mysqlFlavor_default w Hf Hsz).
      rewrite <- length_map_to_list in Hsz.
      destruct (map_to_list (mysqlFlavors w)) as [|[k v] [|? ?]]; [|done|];
        by destruct (mysqlFlavors w !! "GoogleMysql").
  - rewrite (mysqlFlavor_explicit w Hf).
    by destruct (mysqlFlavors w !! config w).
Qed.

End Shape.

(** ** The selection policy *)

Section Policy.
Context {X : Externals}.
Implicit Types (w : World X) (v : MysqlFlavor X) (k f : string).

(** C1 (as amended): when the registry and the value of MYSQL_FLAVOR are the
    same at two calls, both calls end the same way (the same instance
    returned, or the process exit).  Nothing is cached: the second call, like
    the first, ends as the resolution policy decides on the value of
    MYSQL_FLAVOR and the registry current at that call, and it logs its
    message again. *)
Theorem mysqlFlavor_repeatable_not_cached w w' :
  environ w' !! "MYSQL_FLAVOR" = environ w !! "MYSQL_FLAVOR" →
  mysqlFlavors w' = mysqlFlavors w →
  (mysqlFlavor w').1 = (mysqlFlavor w).1 ∧
  (mysqlFlavor w').1 =
    policy_outcome (resolution_policy (config w') (mysqlFlavors w')) ∧
  ∃ line, (mysqlFlavor w).2 = log_line line w ∧
          (mysqlFlavor w').2 = log_line line w'.
Proof.
  intros Henv Hreg.
  destruct (mysqlFlavor_config_ext w w') as (line & Hw & Hw');
    [unfold config; by rewrite Henv | done |].
  split_and!.
  - by rewrite Hw'.
  - apply mysqlFlavor_runs_policy.
  - exists line. by rewrite Hw, Hw'.
Qed.

(** C2 (as amended): when the registry holds the single entry "MariaDB" and
    MYSQL_FLAVOR is unset, resolution succeeds and returns the implementation
    registered under "MariaDB", by the only-one-flavor rule. *)
Theorem only_MariaDB_resolves w v :
  environ w !! "MYSQL_FLAVOR" = None →
  mysqlFlavors w = {[ "MariaDB" := v ]} →
  mysqlFlavor w =
    (Returned v,
     log_line (info "Only one MySQL flavor declared, using MariaDB") w).
Proof.
  intros Henv Hreg.
  apply (mysqlFlavor_single w "MariaDB" v); [by apply config_unset| |];
    rewrite Hreg; [apply map_size_singleton | apply map_to_list_singleton].
Qed.

(** C4: a non-empty MYSQL_FLAVOR that names a registered flavor resolves to
    the implementation registered under that name, whatever else the
    registry holds. *)
Theorem explicit_registered_resolves w f v :
  f ≠ EmptyString → environ w !! "MYSQL_FLAVOR" = Some f →
  mysqlFlavors w !! f = Some v →
  mysqlFlavor w = (Returned v, log_line (info ("Using MySQL flavor " +:+ f)) w).
Proof.
  intros Hne Henv Hreg.
  assert (config w = f) as Hcfg by (unfold config; by rewrite Henv).
  rewrite mysqlFlavor_explicit by congruence. by rewrite Hcfg, Hreg.
Qed.

(** C5: a non-empty MYSQL_FLAVOR that names no registered flavor ends in the
    fatal "unknown value" exit; no value is returned, so neither the
    only-one-flavor rule nor the default-name rule is applied, whatever the
    registry holds. *)
Theorem explicit_unregistered_fatal w f :
  f ≠ EmptyString → environ w !! "MYSQL_FLAVOR" = Some f →
  mysqlFlavors w !! f = None →
  mysqlFlavor w =
    (Fatal, log_line (fatal ("MYSQL_FLAVOR is set to unknown value " +:+ f)) w)
  ∧ ∀ v, (mysqlFlavor w).1 ≠ Returned v.
Proof.
  intros Hne Henv Hreg.
  assert (config w = f) as Hcfg by (unfold config; by rewrite Henv).
  rewrite mysqlFlavor_explicit by congruence. by rewrite Hcfg, Hreg.
Qed.

(** C6: with exactly one registered flavor and MYSQL_FLAVOR unset or empty,
    resolution returns that flavor's implementation, whatever its name. *)
Theorem single_flavor_resolves w k v :
  environ w !! "MYSQL_FLAVOR" = None ∨
    environ w !! "MYSQL_FLAVOR" = Some EmptyString →
  size (mysqlFlavors w) = 1 →
  mysqlFlavors w !! k = Some v →
  mysqlFlavor w =
    (Returned v,
     log_line (info ("Only one MySQL flavor declared, using " +:+ k)) w).
Proof.
  intros Henv Hsz Hk.
  assert (config w = EmptyString) as Hf
    by (destruct Henv; [by apply config_unset | by apply config_empty]).
  destruct (map_size_1_entries _ Hsz) as (k0 & v0 & Hl & Huniq).
  destruct (Huniq _ _ Hk) as [-> ->].
  by apply mysqlFlavor_single.
Qed.

(** C7: with two or more registered flavors, none under "GoogleMysql", and
    MYSQL_FLAVOR unset, the call ends in the fatal exit of the process and
    returns no flavor. *)
Theorem several_without_default_fatal w :
  environ w !! "MYSQL_FLAVOR" = None →
  2 ≤ size (mysqlFlavors w) →
  mysqlFlavors w !! "GoogleMysql" = None →
  mysqlFlavor w =
    (Fatal,
     log_line (fatal "MYSQL_FLAVOR is not set, and no GoogleMysql flavor registered") w)
  ∧ ∀ v, (mysqlFlavor w).1 ≠ Returned v.
Proof.
  intros Henv Hsz Hg.
  rewrite mysqlFlavor_default; [|by apply config_unset|lia].
  by rewrite Hg.
Qed.

(** C8: when "GoogleMysql" is registered together with at least one other
    flavor and MYSQL_FLAVOR is unset, resolution returns the implementation
    registered under "GoogleMysql". *)
Theorem default_among_several_resolves w v k :
  environ w !! "MYSQL_FLAVOR" = None →
  mysqlFlavors w !! "GoogleMysql" = Some v →
  k ≠ "GoogleMysql" → is_Some (mysqlFlavors w !! k) →
  mysqlFlavor w =
    (Returned v,
     log_line (info "MYSQL_FLAVOR is not set, using GoogleMysql flavor by default") w).
Proof.
  intros Henv Hg Hk Hother.
  rewrite mysqlFlavor_default; [by rewrite Hg|by apply config_unset|].
  by apply (map_size_two_keys _ k "GoogleMysql").
Qed.

(** C9 (as amended): the call never ends in the trailing panic, and a value
    it returns is stored in the registry under some name: no value absent
    from the registry is returned, in particular not the nil of a failed
    lookup.  (A nil stored in the registry is returned like any other
    value.) *)
Theorem mysqlFlavor_returns_registered w :
  (∀ msg, (mysqlFlavor w).1 ≠ Panicked msg) ∧
  (∀ v, (mysqlFlavor w).1 = Returned v → ∃ k, mysqlFlavors w !! k = Some v).
Proof.
  destruct (mysqlFlavor_cases w) as (line & _ & [Hfatal|(k & v0 & Hk & Hret)]).
  - rewrite Hfatal. split; [done|]. intros v; discriminate.
  - rewrite Hret. split; [done|]. intros v [= <-]. by exists k.
Qed.

(** C10: the registry after a call is the registry before it, however the
    call ends. *)
Theorem mysqlFlavor_keeps_registry w :
  mysqlFlavors (mysqlFlavor w).2 = mysqlFlavors w.
Proof. destruct (mysqlFlavor_cases w) as (line & -> & _). done. Qed.

End Policy.

(** ** Reporting errors to the caller *)





(** For contrast, a method whose result list ends in [error] does hand a
    failure to its caller. *)
Lemma ParseGTID_call_failure
    (X : Externals) (flavor : MysqlFlavor_methods X) (s : string) g err :
  ParseGTID flavor s = (g, Some err) → ParseGTID_call flavor s = Failure err.
Proof. unfold ParseGTID_call, observe. simpl. by intros ->. Qed.


(** ** The concrete scenarios *)

Example scenario1 : (mysqlFlavor onlyGoogle).1 = Returned implA.
Proof. vm_compute. reflexivity. Qed.

Example scenario2 : (mysqlFlavor googleAndMaria).1 = Returned implA.
Proof. vm_compute. reflexivity. Qed.

Example scenario4 :
  (mysqlFlavor (Setenv "MYSQL_FLAVOR" "MariaDB" googleAndMaria)).1 = Returned implB.
Proof. vm_compute. reflexivity. Qed.

Example scenario5 :
  (mysqlFlavor (Setenv "MYSQL_FLAVOR" "Unknown" onlyGoogle)).1 = Fatal.
Proof. vm_compute. reflexivity. Qed.

Example empty_registry_fatal :
  mysqlFlavor (start (X := plainTypes) ∅ ∅) =
    (Fatal,
     log_line (fatal "MYSQL_FLAVOR is not set, and no GoogleMysql flavor registered")
       (start ∅ ∅)).
Proof. vm_compute. reflexivity. Qed.

Lemma implA_neq_implB : implA ≠ implB.
Proof. intros [=]. Qed.

(** C1, refuted as stated: starting from the two-flavor registry with
    MYSQL_FLAVOR unset, a first call returns [implA] and leaves the registry
    as it was.  A second call in that state is no pure read, it changes the
    state by logging again; and once MYSQL_FLAVOR has been set to "MariaDB"
    in between, with the registry still untouched, the second call returns
    [implB]. *)
Lemma second_call_reruns_policy :
  let w0 := googleAndMaria in
  let w1 := (mysqlFlavor w0).2 in
  let w2 := Setenv "MYSQL_FLAVOR" "MariaDB" w1 in
  (mysqlFlavor w0).1 = Returned implA ∧
  mysqlFlavors w1 = mysqlFlavors w0 ∧
  (mysqlFlavor w1).2 ≠ w1 ∧
  mysqlFlavors w2 = mysqlFlavors w0 ∧
  (mysqlFlavor w2).1 = Returned implB ∧
  (mysqlFlavor w2).1 ≠ (mysqlFlavor w0).1.
Proof.
  cbv zeta. split_and!.
  - vm_compute. reflexivity.
  - vm_compute. reflexivity.
  - intros Heq. apply (f_equal (λ w, length (glog w))) in Heq.
    vm_compute in Heq. discriminate.
  - vm_compute. reflexivity.
  - vm_compute. reflexivity.
  - intros Heq.
    assert ((mysqlFlavor (Setenv "MYSQL_FLAVOR" "MariaDB" (mysqlFlavor googleAndMaria).2)).1
            = Returned implB) as H2 by (vm_compute; reflexivity).
    assert ((mysqlFlavor googleAndMaria).1 = Returned implA) as H0
      by (vm_compute; reflexivity).
    rewrite H2, H0 in Heq. apply implA_neq_implB. congruence.
Qed.

Lemma mysqlFlavor_repeatable_not_cached_witness :
  let w := googleAndMaria in
  let w' := (mysqlFlavor w).2 in
  environ w' !! "MYSQL_FLAVOR" = environ w !! "MYSQL_FLAVOR" ∧
  mysqlFlavors w' = mysqlFlavors w ∧
  ((mysqlFlavor w').1 = (mysqlFlavor w).1 ∧
   (mysqlFlavor w').1 =
     policy_outcome (resolution_policy (config w') (mysqlFlavors w')) ∧
   ∃ line, (mysqlFlavor w).2 = log_line line w ∧
           (mysqlFlavor w').2 = log_line line w').
Proof.
  cbv zeta. split; [vm_compute; reflexivity|]. split; [vm_compute; reflexivity|].
  apply (mysqlFlavor_repeatable_not_cached googleAndMaria (mysqlFlavor googleAndMaria).2);
    vm_compute; reflexivity.
Defined.

(** C2, refuted as stated: with the single entry "MariaDB" and MYSQL_FLAVOR
    unset, the call returns [implB] and does not end in the fatal exit. *)
Lemma only_MariaDB_not_fatal :
  environ onlyMaria !! "MYSQL_FLAVOR" = None ∧
  mysqlFlavors onlyMaria = {[ "MariaDB" := implB ]} ∧
  (mysqlFlavor onlyMaria).1 = Returned implB ∧
  (mysqlFlavor onlyMaria).1 ≠ Fatal.
Proof.
  split_and!; [reflexivity | reflexivity | vm_compute; reflexivity |].
  assert ((mysqlFlavor onlyMaria).1 = Returned implB) as ->
    by (vm_compute; reflexivity).
  discriminate.
Qed.

Lemma only_MariaDB_resolves_witness :
  environ onlyMaria !! "MYSQL_FLAVOR" = None ∧
  mysqlFlavors onlyMaria = {[ "MariaDB" := implB ]} ∧
  mysqlFlavor onlyMaria =
    (Returned implB,
     log_line (info "Only one MySQL flavor declared, using MariaDB") onlyMaria).
Proof.
  split; [reflexivity|]. split; [reflexivity|].
  apply (only_MariaDB_resolves onlyMaria implB); reflexivity.
Defined.


Lemma explicit_registered_resolves_witness :
  let w := Setenv "MYSQL_FLAVOR" "MariaDB" googleAndMaria in
  "MariaDB" ≠ EmptyString ∧
  environ w !! "MYSQL_FLAVOR" = Some "MariaDB" ∧
  mysqlFlavors w !! "MariaDB" = Some implB ∧
  mysqlFlavor w = (Returned implB, log_line (info "Using MySQL flavor MariaDB") w).
Proof.
  cbv zeta. split; [discriminate|]. split; [vm_compute; reflexivity|].
  split; [vm_compute; reflexivity|].
  apply (explicit_registered_resolves
           (Setenv "MYSQL_FLAVOR" "MariaDB" googleAndMaria) "MariaDB" implB);
    [discriminate | vm_compute; reflexivity | vm_compute; reflexivity].
Defined.

Lemma explicit_unregistered_fatal_witness :
  let w := Setenv "MYSQL_FLAVOR" "Unknown" onlyGoogle in
  "Unknown" ≠ EmptyString ∧
  environ w !! "MYSQL_FLAVOR" = Some "Unknown" ∧
  mysqlFlavors w !! "Unknown" = None ∧
  size (mysqlFlavors w) = 1 ∧
  (mysqlFlavor w =
     (Fatal, log_line (fatal "MYSQL_FLAVOR is set to unknown value Unknown") w)
   ∧ ∀ v, (mysqlFlavor w).1 ≠ Returned v).
Proof.
  cbv zeta. split; [discriminate|]. split; [vm_compute; reflexivity|].
  split; [vm_compute; reflexivity|]. split; [vm_compute; reflexivity|].
  apply (explicit_unregistered_fatal
           (Setenv "MYSQL_FLAVOR" "Unknown" onlyGoogle) "Unknown");
    [discriminate | vm_compute; reflexivity | vm_compute; reflexivity].
Defined.

Lemma single_flavor_resolves_witness :
  (environ onlyMaria !! "MYSQL_FLAVOR" = None ∨
   environ onlyMaria !! "MYSQL_FLAVOR" = Some EmptyString) ∧
  size (mysqlFlavors onlyMaria) = 1 ∧
  mysqlFlavors onlyMaria !! "MariaDB" = Some implB ∧
  mysqlFlavor onlyMaria =
    (Returned implB,
     log_line (info "Only one MySQL flavor declared, using MariaDB") onlyMaria).
Proof.
  split; [left; reflexivity|]. split; [vm_compute; reflexivity|].
  split; [vm_compute; reflexivity|].
  apply (single_flavor_resolves onlyMaria "MariaDB" implB);
    [left; reflexivity | vm_compute; reflexivity | vm_compute; reflexivity].
Defined.

Lemma several_without_default_fatal_witness :
  environ twoNoDefault !! "MYSQL_FLAVOR" = None ∧
  2 ≤ size (mysqlFlavors twoNoDefault) ∧
  mysqlFlavors twoNoDefault !! "GoogleMysql" = None ∧
  (mysqlFlavor twoNoDefault =
     (Fatal,
      log_line (fatal "MYSQL_FLAVOR is not set, and no GoogleMysql flavor registered")
        twoNoDefault)
   ∧ ∀ v, (mysqlFlavor twoNoDefault).1 ≠ Returned v).
Proof.
  split; [reflexivity|]. split; [vm_compute; lia|]. split; [vm_compute; reflexivity|].
  apply (several_without_default_fatal twoNoDefault);
    [reflexivity | vm_compute; lia | vm_compute; reflexivity].
Defined.

Lemma default_among_several_resolves_witness :
  environ googleAndMaria !! "MYSQL_FLAVOR" = None ∧
  mysqlFlavors googleAndMaria !! "GoogleMysql" = Some implA ∧
  "MariaDB" ≠ "GoogleMysql" ∧
  is_Some (mysqlFlavors googleAndMaria !! "MariaDB") ∧
  mysqlFlavor googleAndMaria =
    (Returned implA,
     log_line (info "MYSQL_FLAVOR is not set, using GoogleMysql flavor by default")
       googleAndMaria).
Proof.
  split; [reflexivity|]. split; [vm_compute; reflexivity|]. split; [discriminate|].
  split; [exists implB; vm_compute; reflexivity|].
  apply (default_among_several_resolves googleAndMaria implA "MariaDB");
    [reflexivity | vm_compute; reflexivity | discriminate
    | exists implB; vm_compute; reflexivity].
Defined.

(** C9, refuted as stated: a nil stored in the registry is returned, on each
    of the three return paths: as the only entry, as the entry under the
    default name, and as the entry that MYSQL_FLAVOR names. *)
Lemma registered_nil_is_returned :
  let single : World plainTypes := start ∅ {[ "GoogleMysql" := nil ]} in
  let several : World plainTypes :=
    start ∅ (<[ "GoogleMysql" := nil ]> {[ "MariaDB" := implB ]}) in
  let named : World plainTypes := Setenv "MYSQL_FLAVOR" "GoogleMysql" several in
  (mysqlFlavor single).1 = Returned nil ∧
  (mysqlFlavor several).1 = Returned nil ∧
  (mysqlFlavor named).1 = Returned nil.
Proof. cbv zeta. split_and!; vm_compute; reflexivity. Qed.

Lemma mysqlFlavor_returns_registered_witness :
  (mysqlFlavor onlyGoogle).1 = Returned implA ∧
  ∃ k, mysqlFlavors onlyGoogle !! k = Some implA.
Proof.
  split; [vm_compute; reflexivity|].
  apply (proj2 (mysqlFlavor_returns_registered onlyGoogle) implA).
  vm_compute; reflexivity.
Defined.

(** ** Further properties of the selector *)

Section Further.
Context {X : Externals}.
Implicit Types (w : World X) (v : MysqlFlavor X) (k f : string).

(** X1: while the registry is still the empty map it starts as, every call
    ends in the fatal exit, whatever MYSQL_FLAVOR holds: with the "not set"
    message when it is unset or empty, with the "unknown value" message
    otherwise. *)
Theorem unpopulated_registry_fatal w :
  mysqlFlavors w = mysqlFlavors_init →
  mysqlFlavor w =
    (Fatal,
     log_line
       (fatal (if decide (config w = EmptyString)
               then "MYSQL_FLAVOR is not set, and no GoogleMysql flavor registered"
               else "MYSQL_FLAVOR is set to unknown value " +:+ config w)) w).
Proof.
  unfold mysqlFlavors_init. intros Hreg. case_decide as Hf.
  - rewrite mysqlFlavor_default; [|done|by rewrite Hreg, map_size_empty].
    by rewrite Hreg, lookup_empty.
  - rewrite mysqlFlavor_explicit by done. by rewrite Hreg, lookup_empty.
Qed.

(** X2: a call logs exactly one message (one [log.Info], [log.Infof],
    [log.Fatal] or [log.Fatalf] call is reached) and leaves the environment,
    the registry and the messages logged before as they were.  The message
    has severity INFO exactly when a flavor is returned and severity FATAL
    exactly when the process exits. *)
Theorem mysqlFlavor_logs_one_message w :
  ∃ line,
    (mysqlFlavor w).2 =
      {| environ := environ w; mysqlFlavors := mysqlFlavors w;
         glog := glog w ++ [line] |} ∧
    (severity line = INFO ↔ ∃ v, (mysqlFlavor w).1 = Returned v) ∧
    (severity line = FATAL ↔ (mysqlFlavor w).1 = Fatal).
Proof.
  destruct (decide (config w = EmptyString)) as [Hf|Hf].
  - destruct (decide (size (mysqlFlavors w) = 1)) as [Hsz|Hsz].
    + destruct (map_size_1_entries _ Hsz) as (k & v & Hl & _).
      rewrite (mysqlFlavor_single w k v Hf Hsz Hl).
      eexists; split; [done|]. simpl. split; split; try done; eauto.
    + rewrite (mysqlFlavor_default w Hf Hsz).
      destruct (mysqlFlavors w !! "GoogleMysql") as [v|];
        (eexists; split; [done|]); simpl; split; split; try done; eauto;
        by intros [? ?].
  - rewrite (mysqlFlavor_explicit w Hf).
    destruct (mysqlFlavors w !! config w) as [v|];
      (eexists; split; [done|]); simpl; split; split; try done; eauto;
      by intros [? ?].
Qed.

(** X3: a flavor is returned exactly when MYSQL_FLAVOR is non-empty and
    names a registered flavor, or is unset or empty while either exactly one
    flavor is registered or "GoogleMysql" is; in every other case the
    process exits. *)
Theorem mysqlFlavor_succeeds_iff w :
  let resolvable :=
    (config w ≠ EmptyString ∧ is_Some (mysqlFlavors w !! config w)) ∨
    (config w = EmptyString ∧
     (size (mysqlFlavors w) = 1 ∨ is_Some (mysqlFlavors w !! "GoogleMysql"))) in
  ((∃ v, (mysqlFlavor w).1 = Returned v) ↔ resolvable) ∧
  ((mysqlFlavor w).1 = Fatal ↔ ¬ resolvable).
Proof.
  cbv zeta.
  destruct (decide (config w = EmptyString)) as [Hf|Hf].
  - destruct (decide (size (mysqlFlavors w) = 1)) as [Hsz|Hsz].
    + destruct (map_size_1_entries _ Hsz) as (k & v & Hl & _).
      rewrite (mysqlFlavor_single w k v Hf Hsz Hl). simpl.
      split; split; try done; eauto. intros Hno. destruct Hno. eauto.
    + rewrite (mysqlFlavor_default w Hf Hsz).
      destruct (mysqlFlavors w !! "GoogleMysql") as [v|] eqn:Hg; simpl.
      * split; split; try done; eauto. intros Hno. destruct Hno. eauto.
      * split; split; try done.
        -- by intros [? ?].
        -- intros [[? _]|[_ [?|[? ?]]]]; done.
        -- intros _ [[? _]|[_ [?|[? ?]]]]; done.
  - rewrite (mysqlFlavor_explicit w Hf).
    destruct (mysqlFlavors w !! config w) as [v|] eqn:Hl; simpl.
    + split; split; try done; eauto. intros Hno. destruct Hno. eauto.
    + split; split; try done.
      * by intros [? ?].
      * intros [[_ [? ?]]|[? _]]; done.
      * intros _ [[_ [? ?]]|[? _]]; done.
Qed.

(** X4: of the environment only MYSQL_FLAVOR matters: two states that agree
    on that variable and on the registry get the same outcome and the same
    log line, however their other variables differ. *)
Theorem other_variables_irrelevant w w' :
  environ w' !! "MYSQL_FLAVOR" = environ w !! "MYSQL_FLAVOR" →
  mysqlFlavors w' = mysqlFlavors w →
  (mysqlFlavor w').1 = (mysqlFlavor w).1 ∧
  ∃ line, (mysqlFlavor w).2 = log_line line w ∧
          (mysqlFlavor w').2 = log_line line w'.
Proof.
  intros Henv Hreg.
  destruct (mysqlFlavor_config_ext w w') as (line & Hw & Hw');
    [unfold config; by rewrite Henv | done |].
  rewrite Hw'. split; [done|]. exists line. by rewrite Hw.
Qed.

(** X5: MYSQL_FLAVOR set to the empty string is treated exactly like
    MYSQL_FLAVOR not set at all. *)
Theorem empty_value_like_unset w w' :
  environ w !! "MYSQL_FLAVOR" = None →
  environ w' !! "MYSQL_FLAVOR" = Some EmptyString →
  mysqlFlavors w' = mysqlFlavors w →
  (mysqlFlavor w').1 = (mysqlFlavor w).1 ∧
  ∃ line, (mysqlFlavor w).2 = log_line line w ∧
          (mysqlFlavor w').2 = log_line line w'.
Proof.
  intros Hunset Hempty Hreg.
  destruct (mysqlFlavor_config_ext w w') as (line & Hw & Hw');
    [by rewrite (config_unset w), (config_empty w') | done |].
  rewrite Hw'. split; [done|]. exists line. by rewrite Hw.
Qed.

(** X6: once "GoogleMysql" is registered, resolution without a configuration
    value succeeds and returns it, however many flavors are registered. *)
Theorem default_registered_resolves w v :
  environ w !! "MYSQL_FLAVOR" = None ∨
    environ w !! "MYSQL_FLAVOR" = Some EmptyString →
  mysqlFlavors w !! "GoogleMysql" = Some v →
  (mysqlFlavor w).1 = Returned v.
Proof.
  intros Henv Hg.
  assert (config w = EmptyString) as Hf
    by (destruct Henv; [by apply config_unset | by apply config_empty]).
  destruct (decide (size (mysqlFlavors w) = 1)) as [Hsz|Hsz].
  - destruct (map_size_1_entries _ Hsz) as (k & v0 & Hl & Huniq).
    destruct (Huniq _ _ Hg) as [Hk Hv]. subst k v0.
    by rewrite (mysqlFlavor_single w _ _ Hf Hsz Hl).
  - by rewrite (mysqlFlavor_default w Hf Hsz), Hg.
Qed.

(** X7: implicit selection is not stable under growth of the registry.  A
    registry holding one flavor under a name other than "GoogleMysql"
    resolves to it when MYSQL_FLAVOR is unset; with one more flavor stored
    under another name other than "GoogleMysql", the same call exits
    fatally. *)
Theorem second_flavor_breaks_implicit_choice w w' k v k' v' :
  environ w !! "MYSQL_FLAVOR" = None →
  environ w' !! "MYSQL_FLAVOR" = None →
  mysqlFlavors w = {[ k := v ]} →
  mysqlFlavors w' = <[ k' := v' ]> (mysqlFlavors w) →
  k ≠ "GoogleMysql" → k' ≠ "GoogleMysql" → k' ≠ k →
  (mysqlFlavor w).1 = Returned v ∧ (mysqlFlavor w').1 = Fatal.
Proof.
  intros Henv Henv' Hreg Hreg' Hk Hk' Hne. split.
  - rewrite (mysqlFlavor_single w k v); [done|by apply config_unset| |];
      rewrite Hreg; [apply map_size_singleton | apply map_to_list_singleton].
  - rewrite Hreg in Hreg'.
    rewrite mysqlFlavor_default; [|by apply config_unset|].
    + rewrite Hreg', lookup_insert_ne, lookup_singleton_ne by done. done.
    + rewrite Hreg', map_size_insert_None, map_size_singleton;
        [lia | by rewrite lookup_singleton_ne].
Qed.

(** X8: the INFO line of a successful call names the flavor returned: the
    name in "Only one MySQL flavor declared, using ..." or in "Using MySQL
    flavor ..." is a name under which the returned value is registered, and
    the "by default" line goes with the value registered under
    "GoogleMysql". *)
Theorem log_names_returned_flavor w v :
  (mysqlFlavor w).1 = Returned v →
  ∃ k msg,
    mysqlFlavors w !! k = Some v ∧
    (mysqlFlavor w).2 = log_line (info msg) w ∧
    (msg = "Only one MySQL flavor declared, using " +:+ k ∨
     (k = "GoogleMysql" ∧
      msg = "MYSQL_FLAVOR is not set, using GoogleMysql flavor by default") ∨
     (k = config w ∧ k ≠ EmptyString ∧ msg = "Using MySQL flavor " +:+ k)).
Proof.
  destruct (decide (config w = EmptyString)) as [Hf|Hf].
  - destruct (decide (size (mysqlFlavors w) = 1)) as [Hsz|Hsz].
    + destruct (map_size_1_entries _ Hsz) as (k & v0 & Hl & _).
      rewrite (mysqlFlavor_single w k v0 Hf Hsz Hl). intros [= <-].
      exists k. eexists. split_and!; [|done|by left].
      apply elem_of_map_to_list. rewrite Hl. by apply list_elem_of_singleton.
    + rewrite (mysqlFlavor_default w Hf Hsz).
      destruct (mysqlFlavors w !! "GoogleMysql") as [v0|] eqn:Hg; [|done].
      intros [= <-]. exists "GoogleMysql". eexists.
      split_and!; [done|done|]. right; left. done.
  - rewrite (mysqlFlavor_explicit w Hf).
    destruct (mysqlFlavors w !! config w) as [v0|] eqn:Hl; [|done].
    intros [= <-]. exists (config w). eexists.
    split_and!; [done|done|]. right; right. done.
Qed.

End Further.

Lemma unpopulated_registry_fatal_witness :
  let w : World plainTypes :=
    Setenv "MYSQL_FLAVOR" "MariaDB" (start ∅ mysqlFlavors_init) in
  mysqlFlavors w = mysqlFlavors_init ∧
  mysqlFlavor w =
    (Fatal,
     log_line
       (fatal (if decide (config w = EmptyString)
               then "MYSQL_FLAVOR is not set, and no GoogleMysql flavor registered"
               else "MYSQL_FLAVOR is set to unknown value " +:+ config w)) w).
Proof.
  cbv zeta. split; [reflexivity|].
  apply (unpopulated_registry_fatal
           (Setenv "MYSQL_FLAVOR" "MariaDB" (start (X := plainTypes) ∅ mysqlFlavors_init))).
  reflexivity.
Defined.

Lemma other_variables_irrelevant_witness :
  let w := googleAndMaria in
  let w' := Setenv "HOME" "/root" googleAndMaria in
  environ w' !! "MYSQL_FLAVOR" = environ w !! "MYSQL_FLAVOR" ∧
  mysqlFlavors w' = mysqlFlavors w ∧
  ((mysqlFlavor w').1 = (mysqlFlavor w).1 ∧
   ∃ line, (mysqlFlavor w).2 = log_line line w ∧
           (mysqlFlavor w').2 = log_line line w').
Proof.
  cbv zeta. split; [vm_compute; reflexivity|]. split; [reflexivity|].
  apply (other_variables_irrelevant googleAndMaria (Setenv "HOME" "/root" googleAndMaria));
    [vm_compute; reflexivity | reflexivity].
Defined.

Lemma empty_value_like_unset_witness :
  let w := onlyMaria in
  let w' := Setenv "MYSQL_FLAVOR" EmptyString onlyMaria in
  environ w !! "MYSQL_FLAVOR" = None ∧
  environ w' !! "MYSQL_FLAVOR" = Some EmptyString ∧
  mysqlFlavors w' = mysqlFlavors w ∧
  ((mysqlFlavor w').1 = (mysqlFlavor w).1 ∧
   ∃ line, (mysqlFlavor w).2 = log_line line w ∧
           (mysqlFlavor w').2 = log_line line w').
Proof.
  cbv zeta. split; [reflexivity|]. split; [vm_compute; reflexivity|].
  split; [reflexivity|].
  apply (empty_value_like_unset onlyMaria (Setenv "MYSQL_FLAVOR" EmptyString onlyMaria));
    [reflexivity | vm_compute; reflexivity | reflexivity].
Defined.

Lemma default_registered_resolves_witness :
  (environ googleAndMaria !! "MYSQL_FLAVOR" = None ∨
   environ googleAndMaria !! "MYSQL_FLAVOR" = Some EmptyString) ∧
  mysqlFlavors googleAndMaria !! "GoogleMysql" = Some implA ∧
  (mysqlFlavor googleAndMaria).1 = Returned implA.
Proof.
  split; [left; reflexivity|]. split; [vm_compute; reflexivity|].
  apply (default_registered_resolves googleAndMaria implA);
    [left; reflexivity | vm_compute; reflexivity].
Defined.

Lemma second_flavor_breaks_implicit_choice_witness :
  environ onlyMaria !! "MYSQL_FLAVOR" = None ∧
  environ twoNoDefault !! "MYSQL_FLAVOR" = None ∧
  mysqlFlavors onlyMaria = {[ "MariaDB" := implB ]} ∧
  mysqlFlavors twoNoDefault = <[ "Percona" := implA ]> (mysqlFlavors onlyMaria) ∧
  "MariaDB" ≠ "GoogleMysql" ∧ "Percona" ≠ "GoogleMysql" ∧ "Percona" ≠ "MariaDB" ∧
  ((mysqlFlavor onlyMaria).1 = Returned implB ∧
   (mysqlFlavor twoNoDefault).1 = Fatal).
Proof.
  do 7 (split; [first [reflexivity | discriminate]|]).
  apply (second_flavor_breaks_implicit_choice
           onlyMaria twoNoDefault "MariaDB" implB "Percona" implA);
    first [reflexivity | discriminate].
Defined.

Lemma log_names_returned_flavor_witness :
  let w := Setenv "MYSQL_FLAVOR" "MariaDB" googleAndMaria in
  (mysqlFlavor w).1 = Returned implB ∧
  ∃ k msg,
    mysqlFlavors w !! k = Some implB ∧
    (mysqlFlavor w).2 = log_line (info msg) w ∧
    (msg = "Only one MySQL flavor declared, using " +:+ k ∨
     (k = "GoogleMysql" ∧
      msg = "MYSQL_FLAVOR is not set, using GoogleMysql flavor by default") ∨
     (k = config w ∧ k ≠ EmptyString ∧ msg = "Using MySQL flavor " +:+ k)).
Proof.
  cbv zeta. split; [vm_compute; reflexivity|].
  apply (log_names_returned_flavor
           (Setenv "MYSQL_FLAVOR" "MariaDB" googleAndMaria) implB).
  vm_compute; reflexivity.
Defined.
